(** * Source.Python-RPG: the [Player] class of [rpg/player.py]

    A shallow embedding of the leveling and skill logic of
    [addons/source-python/plugins/rpg/player.py], and the properties of it
    that the specification states.

    Python integers are unbounded, so [level], [xp], [credits] and the
    levels of skills are [Z].  Skills are objects shared by reference: the
    player's [skills] list holds references, and the objects live in a
    store.  Calls into the collaborators that are not part of the file
    (the listener managers of [rpg.listeners], [Skill.execute_callbacks])
    are recorded, in order, in a log. *)

From Equations Require Import Equations.
From Stdlib Require Import ZArith Lia FunctionalExtensionality.
From stdpp Require Import gmap strings list functions.

Local Open Scope Z_scope.

(** ** Skill objects *)

(** A reference to a skill object (its identity). *)
Definition loc := positive.

(** The attributes of a skill that [player.py] reads and writes as stored
    values.  The class [rpg.skill.Skill] itself is not in [player.py]. *)
Module Skill.

Record t := mk {
  class_id : string;
  level : Z;
  max_level : option Z
}.

Definition set_level (v : Z) (s : t) : t :=
  {| class_id := class_id s; level := v; max_level := max_level s |}.

End Skill.

(** [skill.upgrade_cost] and [skill.downgrade_refund] are read-only
    attributes computed by the skill; they are taken as functions of the
    skill object as it is when the attribute is read. *)
Class SkillCosts := {
  upgrade_cost : Skill.t → Z;
  downgrade_refund : Skill.t → Z
}.

(** ** Calls to the outside *)

(** Values passed as keyword arguments of an event. *)
Inductive pyobj :=
| PySelf
| PySkill (r : loc)
| PyInt (z : Z)
| PyStr (s : string).

(** One entry per call that leaves [player.py].  Every notification is
    sent with [player=self]; the other keyword arguments are the
    constructor's fields. *)
Inductive call :=
| OnPlayerLevelUp (levels credits : Z)
| OnPlayerUpgradeSkill (skill : loc)
| OnPlayerDowngradeSkill (skill : loc)
| execute_callbacks (skill : loc) (event_name : string)
    (kwargs : gmap string pyobj).

(** [ValueError] with the amount its message holds; [TypeError] for a call
    that gives an argument more than one value. *)
Inductive exn :=
| ValueError (amount : Z)
| TypeError.

(** ** State *)

(** The attributes of [self], the store of skill objects, and the log. *)
Record State := mkState {
  _level : Z;
  _xp : Z;
  _credits : Z;
  skills : list loc;
  heap : loc → Skill.t;
  log : list call
}.

Definition level (st : State) : Z := _level st.
Definition credits (st : State) : Z := _credits st.
Definition xp (st : State) : Z := _xp st.
Definition required_xp (st : State) : Z := 300 + 15 * level st.

Definition set_level (v : Z) (st : State) : State :=
  mkState v (_xp st) (_credits st) (skills st) (heap st) (log st).
Definition set_xp (v : Z) (st : State) : State :=
  mkState (_level st) v (_credits st) (skills st) (heap st) (log st).
Definition set_credits (v : Z) (st : State) : State :=
  mkState (_level st) (_xp st) v (skills st) (heap st) (log st).
Definition set_skill_level (skill : loc) (v : Z) (st : State) : State :=
  mkState (_level st) (_xp st) (_credits st) (skills st)
    (<[skill := Skill.set_level v (heap st skill)]> (heap st)) (log st).
Definition emit (c : call) (st : State) : State :=
  mkState (_level st) (_xp st) (_credits st) (skills st) (heap st)
    (log st ++ [c]).

(** ** Computations: state and exceptions *)

Inductive res (A : Type) :=
| Ret (a : A)
| Raise (e : exn).
Arguments Ret {A} a.
Arguments Raise {A} e.

Definition M (A : Type) : Type := State → res A * State.

#[export] Instance M_ret : MRet M := λ A a st, (Ret a, st).
#[export] Instance M_bind : MBind M := λ A B f m st,
  match m st with
  | (Ret a, st') => f a st'
  | (Raise e, st') => (Raise e, st')
  end.

Definition gets {A} (f : State → A) : M A := λ st, (Ret (f st), st).
Definition modify (f : State → State) : M unit := λ st, (Ret (), f st).
Definition raise {A} (e : exn) : M A := λ st, (Raise e, st).
Definition notify (c : call) : M unit := modify (emit c).

(** [for x in l: body x] *)
Fixpoint for_each {A} (body : A → M unit) (l : list A) : M unit :=
  match l with
  | [] => mret ()
  | x :: l' => body x ;; for_each body l'
  end.

(** ** [give_xp] *)

(** The body of the [while] loop, lines 66-68: [required_xp] is read before
    [_level] is incremented. *)
Definition level_up (st : State) : State :=
  let st := set_xp (xp st - required_xp st) st in
  let st := set_level (level st + 1) st in
  set_credits (credits st + 5) st.

(** The loop runs at most [-19 - level] times while [required_xp <= 0]
    (there [xp] does not decrease); after that every round takes at least
    15 from [xp]. *)
Definition loop_measure (st : State) : nat * nat :=
  (Z.to_nat (-19 - level st), Z.to_nat (xp st)).

(** [while self.xp > self.required_xp: ...] *)
Equations? level_up_loop (st : State) : State
  by wf (loop_measure st) (Subterm.lexprod nat nat lt lt) :=
  level_up_loop st with decide (required_xp st < xp st) => {
    | left _ := level_up_loop (level_up st);
    | right _ := st }.
Proof.
  unfold loop_measure, level_up, required_xp, xp, level in *; simpl.
  destruct (decide (_level st ≤ -20)) as [Hneg|Hpos].
  - apply Subterm.left_lex. lia.
  - replace (Z.to_nat (-19 - (_level st + 1))) with 0%nat by lia.
    replace (Z.to_nat (-19 - _level st)) with 0%nat by lia.
    apply Subterm.right_lex. lia.
Qed.

(** The same loop with a bound on the number of rounds, for evaluation:
    [None] when the bound is reached before the loop ends. *)
Fixpoint level_up_fuel (n : nat) (st : State) : option State :=
  match n with
  | O => None
  | S n' =>
      if decide (required_xp st < xp st) then level_up_fuel n' (level_up st)
      else Some st
  end.

(** Lines 60-74.  The message of the [ValueError] holds [amount]. *)
Definition give_xp (amount : Z) : M unit :=
  if bool_decide (amount < 0) then raise (ValueError amount) else
  modify (λ st, set_xp (xp st + amount) st) ;;
  initial_level ← gets level;
  initial_credits ← gets credits;
  modify level_up_loop ;;
  now_level ← gets level;
  now_credits ← gets credits;
  if bool_decide (initial_level < now_level) then
    notify (OnPlayerLevelUp (initial_level - now_level)
                            (initial_credits - now_credits))
  else mret ().

(** ** [reset_rpg_progress] *)

Definition reset_rpg_progress : M unit :=
  modify (set_level 0) ;;
  modify (set_xp 0) ;;
  modify (set_credits 0) ;;
  all ← gets skills;
  for_each (λ skill, modify (set_skill_level skill 0)) all.

(** ** Upgrading and downgrading skills *)

Section WithCosts.
Context {costs : SkillCosts}.

(** [skill in self.skills] compares by identity, Python's default for
    objects. *)
Definition can_upgrade_skill (skill : loc) (st : State) : bool :=
  bool_decide (skill ∈ skills st)
  && bool_decide (upgrade_cost (heap st skill) ≤ credits st)
  && match Skill.max_level (heap st skill) with
     | None => true
     | Some m => bool_decide (Skill.level (heap st skill) < m)
     end.

Definition can_downgrade_skill (skill : loc) (st : State) : bool :=
  bool_decide (skill ∈ skills st)
  && bool_decide (0 < Skill.level (heap st skill)).

Definition upgrade_skill (skill : loc) : M unit :=
  ok ← gets (can_upgrade_skill skill);
  if negb ok then mret () else
  modify (λ st, set_credits (credits st - upgrade_cost (heap st skill)) st) ;;
  modify (λ st, set_skill_level skill (Skill.level (heap st skill) + 1) st) ;;
  notify (OnPlayerUpgradeSkill skill).

Definition downgrade_skill (skill : loc) : M unit :=
  ok ← gets (can_downgrade_skill skill);
  if negb ok then mret () else
  modify (λ st, set_credits (credits st + downgrade_refund (heap st skill)) st) ;;
  modify (λ st, set_skill_level skill (Skill.level (heap st skill) - 1) st) ;;
  notify (OnPlayerDowngradeSkill skill).

End WithCosts.

(** ** Skill callbacks and lookup *)

(** [skill.execute_callbacks(event_name, player=self, **event_args)]: a
    call that names a keyword twice raises [TypeError] before the callee
    runs. *)
Definition call_execute_callbacks (skill : loc) (event_name : string)
    (event_args : gmap string pyobj) : M unit :=
  match event_args !! "player"%string with
  | Some _ => raise TypeError
  | None =>
      notify (execute_callbacks skill event_name
                (<["player"%string := PySelf]> event_args))
  end.

(** The call [self.execute_skill_callbacks(event_name, **kwargs)] against
    the signature [(self, event_name, **event_args)], lines 132-144.  [self]
    and [event_name] have their values from the call, so a keyword
    argument named [self] or [event_name] gives one of them a second value
    and the call raises [TypeError] before the body runs; otherwise
    [event_args] is the keyword arguments. *)
Definition execute_skill_callbacks (event_name : string)
    (kwargs : gmap string pyobj) : M unit :=
  match kwargs !! "self"%string, kwargs !! "event_name"%string with
  | None, None =>
  let event_args := kwargs in
  all ← gets skills;
  for_each (λ skill,
    lvl ← gets (λ st, Skill.level (heap st skill));
    if bool_decide (0 < lvl)
    then call_execute_callbacks skill event_name event_args
    else mret ()) all
  | _, _ => raise TypeError
  end.

(** The [for] loop of [find_skill] over the list it is given. *)
Fixpoint find_skill_in (h : loc → Skill.t) (skill_id : string)
    (l : list loc) : option loc :=
  match l with
  | [] => None
  | skill :: l' =>
      if bool_decide (Skill.class_id (h skill) = skill_id) then Some skill
      else find_skill_in h skill_id l'
  end.

Definition find_skill (skill_id : string) : M (option loc) :=
  gets (λ st, find_skill_in (heap st) skill_id (skills st)).

(** ** Sample data *)

Definition no_skill : Skill.t := Skill.mk "" 0 None.

(** A player as [Player(index)] builds it, with the given skills, store
    and log. *)
Definition fresh (ss : list loc) (h : loc → Skill.t) (lg : list call) : State :=
  mkState 0 0 0 ss h lg.

(** Skills whose cost and refund do not depend on the skill. *)
Definition flat_costs (cost refund : Z) : SkillCosts :=
  {| upgrade_cost := λ _, cost; downgrade_refund := λ _, refund |}.

(** ** Reference descriptions used in the statements *)

(** The store after [skill.level = 0] for every skill of [l]. *)
Definition zeroed (l : list loc) (h : loc → Skill.t) : loc → Skill.t :=
  λ r, if decide (r ∈ l) then Skill.set_level 0 (h r) else h r.

(** The skills of [l] with a level, in the order of [l]. *)
Definition leveled (h : loc → Skill.t) (l : list loc) : list loc :=
  filter (λ skill, 0 < Skill.level (h skill)) l.

(** One invocation of [execute_callbacks] per leveled skill of [l], each
    with [player = self] added to the event's arguments. *)
Definition callbacks_of (h : loc → Skill.t) (event_name : string)
    (event_args : gmap string pyobj) (l : list loc) : list call :=
  (λ skill, execute_callbacks skill event_name
              (<["player"%string := PySelf]> event_args)) <$> leveled h l.

(** ** [__init__] *)

(** Lines 17-27, without the engine's part ([super().__init__(index)]):
    an argument that is not given takes its default, and [skills=None]
    stands for a new empty list.  The store and the log are those of the
    surrounding program. *)
Definition Player_init (level xp credits : option Z)
    (skills : option (list loc)) (h : loc → Skill.t) (lg : list call) : State :=
  mkState (default 0 level) (default 0 xp) (default 0 credits)
    (match skills with Some l => l | None => [] end) h lg.

(** ** Further descriptions used in the statements *)

(** [self._xp += amount] *)
Definition add_xp (amount : Z) (st : State) : State :=
  set_xp (xp st + amount) st.

(** The XP that [n] level-ups take, starting at level [from]: the sum of
    [300 + 15 * l] for the [n] levels [l = from, from + 1, ...]. *)
Fixpoint thresholds (from : Z) (n : nat) : Z :=
  match n with
  | O => 0
  | S n' => (300 + 15 * from) + thresholds (from + 1) n'
  end.

(** A skill object within its bounds: a level that is not negative and
    not above [max_level] when there is one. *)
Definition skill_ok (s : Skill.t) : Prop :=
  0 ≤ Skill.level s
  ∧ ∀ m, Skill.max_level s = Some m → Skill.level s ≤ m.

(** * Properties *)

(** ** The level-up loop *)

Lemma level_up_loop_eq (st : State) :
  level_up_loop st =
  if decide (required_xp st < xp st) then level_up_loop (level_up st) else st.
Proof.
  rewrite level_up_loop_equation_1.
  destruct (decide _); reflexivity.
Qed.

Lemma level_up_fuel_sound (n : nat) : ∀ st st',
  level_up_fuel n st = Some st' → level_up_loop st = st'.
Proof.
  induction n as [|n IH]; intros st st' Hrun; simpl in Hrun; [discriminate|].
  rewrite level_up_loop_eq.
  destruct (decide (required_xp st < xp st)).
  - apply IH, Hrun.
  - congruence.
Qed.

(** The loop always ends: some bound is enough for the bounded loop to
    give the loop's result. *)
Lemma level_up_fuel_complete (st : State) :
  ∃ n, level_up_fuel n st = Some (level_up_loop st).
Proof.
  funelim (level_up_loop st); clear Heqcall.
  - destruct H as [n Hn]. exists (S n). simpl.
    rewrite Heq. exact Hn.
  - exists 1%nat. simpl. rewrite Heq. reflexivity.
Qed.

(** What the loop leaves alone, and what it establishes: the guard is
    false at exit, levels only go up, and each level pays 5 credits. *)
Lemma level_up_loop_spec (st : State) :
  xp (level_up_loop st) ≤ required_xp (level_up_loop st)
  ∧ level st ≤ level (level_up_loop st)
  ∧ credits (level_up_loop st) - credits st
    = 5 * (level (level_up_loop st) - level st)
  ∧ skills (level_up_loop st) = skills st
  ∧ heap (level_up_loop st) = heap st
  ∧ log (level_up_loop st) = log st.
Proof.
  funelim (level_up_loop st); clear Heqcall.
  - destruct H as (Hxp & Hlv & Hcr & Hss & Hh & Hlg).
    set (st' := level_up_loop (level_up st)) in *.
    unfold level_up, required_xp, xp, level, credits in *; simpl in *.
    repeat split; try assumption; lia.
  - repeat split; lia.
Qed.

Lemma level_up_loop_id (st : State) :
  xp st ≤ required_xp st → level_up_loop st = st.
Proof.
  intros Hle. rewrite level_up_loop_eq.
  destruct (decide _); [lia | reflexivity].
Qed.

(** Unfolds the sequencing of a computation applied to a state. *)
Ltac run :=
  cbv beta iota zeta delta
    [mbind mret M_bind M_ret gets modify notify raise].

(** [give_xp] as one state transformer. *)
Lemma give_xp_run (amount : Z) (st : State) :
  give_xp amount st =
  if bool_decide (amount < 0) then (Raise (ValueError amount), st) else
  let st1 := set_xp (xp st + amount) st in
  let st2 := level_up_loop st1 in
  if bool_decide (level st < level st2) then
    (Ret (), emit (OnPlayerLevelUp (level st - level st2)
                                   (credits st - credits st2)) st2)
  else (Ret (), st2).
Proof.
  unfold give_xp. destruct (bool_decide (amount < 0)); [reflexivity|].
  run. destruct (bool_decide _); reflexivity.
Qed.

(** Evaluation of [give_xp] through the bounded loop. *)
Lemma give_xp_fuel (n : nat) (amount : Z) (st st2 : State) :
  0 ≤ amount →
  level_up_fuel n (set_xp (xp st + amount) st) = Some st2 →
  give_xp amount st =
  if bool_decide (level st < level st2) then
    (Ret (), emit (OnPlayerLevelUp (level st - level st2)
                                   (credits st - credits st2)) st2)
  else (Ret (), st2).
Proof.
  intros Hamount Hrun. rewrite give_xp_run.
  rewrite bool_decide_eq_false_2 by lia. cbv zeta.
  rewrite (level_up_fuel_sound _ _ _ Hrun). reflexivity.
Qed.

(** A call with a non-negative amount returns, and the state it leaves is
    the loop's exit state, with one more log entry if the level rose. *)
Lemma give_xp_returns (amount : Z) (st : State) :
  0 ≤ amount →
  (give_xp amount st).1 = Ret ()
  ∧ xp (give_xp amount st).2 ≤ required_xp (give_xp amount st).2.
Proof.
  intros Hamount. rewrite give_xp_run.
  rewrite bool_decide_eq_false_2 by lia. cbv zeta.
  pose proof (level_up_loop_spec (set_xp (xp st + amount) st)) as (Hxp & _).
  destruct (bool_decide _); split; try reflexivity; exact Hxp.
Qed.

(** The payload of the notification is [initial - current]: the opposite
    of what was gained. *)
Lemma give_xp_level_up_event (amount : Z) (st : State) :
  0 ≤ amount →
  level st < level (give_xp amount st).2 →
  log (give_xp amount st).2 =
  log st ++ [OnPlayerLevelUp (- (level (give_xp amount st).2 - level st))
                             (- (credits (give_xp amount st).2 - credits st))].
Proof.
  intros Hamount. rewrite give_xp_run.
  rewrite bool_decide_eq_false_2 by lia. cbv zeta.
  pose proof (level_up_loop_spec (set_xp (xp st + amount) st))
    as (_ & _ & _ & _ & _ & Hlog).
  destruct (bool_decide_reflect
    (level st < level (level_up_loop (set_xp (xp st + amount) st))));
  simpl; intros Hup; [|unfold level in *; simpl in *; lia].
  rewrite Hlog. simpl. do 2 f_equal. f_equal; unfold level, credits; simpl; lia.
Qed.

(** ** Claims about [give_xp] *)

(** C1, as stated, fails: a fresh player given 300 XP is left with
    [xp = 300 = required_xp], not strictly below it. *)
Lemma give_xp_300_not_below_threshold :
  let st' := (give_xp 300 (fresh [] (λ _, no_skill) [])).2 in
  0 ≤ 300 ∧ ¬ (xp st' < required_xp st').
Proof.
  rewrite (give_xp_fuel 1 300 _ (mkState 0 300 0 [] (λ _, no_skill) []));
    [|lia|reflexivity].
  vm_compute. split; intros H; discriminate H.
Qed.

(** C1 (amended): for every state and every [amount >= 0], [give_xp]
    returns normally and leaves [xp <= required_xp(level)]; [xp] is never
    left above the threshold, and may be left equal to it. *)
Theorem give_xp_settles_at_or_below_threshold (st : State) (amount : Z) :
  0 ≤ amount →
  ∃ st', give_xp amount st = (Ret (), st') ∧ xp st' ≤ required_xp st'.
Proof.
  intros Hamount. destruct (give_xp_returns amount st Hamount) as [Hret Hxp].
  exists (give_xp amount st).2. split; [|exact Hxp].
  destruct (give_xp amount st) as [r st']. simpl in *. congruence.
Qed.

Lemma give_xp_settles_at_or_below_threshold_witness :
  0 ≤ 300 ∧
  ∃ st', give_xp 300 (fresh [] (λ _, no_skill) []) = (Ret (), st')
         ∧ xp st' ≤ required_xp st'.
Proof.
  split; [lia|].
  apply (give_xp_settles_at_or_below_threshold
           (fresh [] (λ _, no_skill) []) 300); lia.
Defined.

(** C2 (the code departs from the claim): on a fresh player, [give_xp 301]
    gains 1 level and 5 credits and sends exactly one [OnPlayerLevelUp],
    whose payload is [levels = -1], [credits = -5]: the gains negated, not
    the gains. *)
Theorem give_xp_301_payload_is_negated :
  let st := fresh [] (λ _, no_skill) [] in
  let st' := (give_xp 301 st).2 in
  level st' - level st = 1
  ∧ credits st' - credits st = 5
  ∧ log st' = [OnPlayerLevelUp (-1) (-5)].
Proof.
  cbv zeta.
  rewrite (give_xp_fuel 2 301 _ (mkState 1 1 5 [] (λ _, no_skill) []));
    [|lia|reflexivity].
  vm_compute. repeat split.
Qed.

(** C3: from level 0, xp 0, credits 0, [give_xp 300] changes nothing but
    [xp] (no level, no credits, no notification), and [give_xp 301] leaves
    level 1, xp 1, credits 5 and adds exactly one [OnPlayerLevelUp] to the
    log (with the payload that the code computes). *)
Theorem give_xp_300_and_301 (ss : list loc) (h : loc → Skill.t)
    (lg : list call) :
  give_xp 300 (fresh ss h lg) = (Ret (), mkState 0 300 0 ss h lg)
  ∧ give_xp 301 (fresh ss h lg)
    = (Ret (), mkState 1 1 5 ss h (lg ++ [OnPlayerLevelUp (-1) (-5)])).
Proof.
  split.
  - rewrite (give_xp_fuel 1 300 _ (mkState 0 300 0 ss h lg));
      [reflexivity|lia|reflexivity].
  - rewrite (give_xp_fuel 2 301 _ (mkState 1 1 5 ss h lg));
      [reflexivity|lia|reflexivity].
Qed.

(** C4: for every negative [amount], [give_xp] raises [ValueError] and the
    state (level, xp, credits, skills, log) is the one before the call. *)
Theorem give_xp_negative_raises (st : State) (amount : Z) :
  amount < 0 →
  give_xp amount st = (Raise (ValueError amount), st).
Proof.
  intros Hneg. rewrite give_xp_run.
  rewrite bool_decide_eq_true_2 by assumption. reflexivity.
Qed.

Lemma give_xp_negative_raises_witness :
  -1 < 0 ∧
  give_xp (-1) (mkState 3 120 7 [] (λ _, no_skill) [])
  = (Raise (ValueError (-1)), mkState 3 120 7 [] (λ _, no_skill) []).
Proof.
  split; [lia|].
  apply (give_xp_negative_raises (mkState 3 120 7 [] (λ _, no_skill) []) (-1)).
  lia.
Defined.

(** C5: from level 0, xp 0, credits 0, one call [give_xp 700] raises the
    level by 2 and the credits by 10 (leaving xp 85) and adds exactly one
    [OnPlayerLevelUp] to the log (with the payload that the code
    computes). *)
Theorem give_xp_700_two_levels_one_event (ss : list loc) (h : loc → Skill.t)
    (lg : list call) :
  give_xp 700 (fresh ss h lg)
  = (Ret (), mkState 2 85 10 ss h (lg ++ [OnPlayerLevelUp (-2) (-10)])).
Proof.
  rewrite (give_xp_fuel 3 700 _ (mkState 2 85 10 ss h lg));
    [reflexivity|lia|reflexivity].
Qed.

(** C10: from a state with [xp <= required_xp(level)], [give_xp] with
    [amount >= 0] leaves [xp <= required_xp(level)]; and the bound is
    reached: a fresh player given 300 XP ends with [xp = required_xp]. *)
Theorem give_xp_keeps_non_strict_bound :
  (∀ (st : State) (amount : Z),
     xp st ≤ required_xp st → 0 ≤ amount →
     xp (give_xp amount st).2 ≤ required_xp (give_xp amount st).2)
  ∧ (∃ (st : State) (amount : Z),
       xp st ≤ required_xp st ∧ 0 ≤ amount
       ∧ (give_xp amount st).1 = Ret ()
       ∧ xp (give_xp amount st).2 = required_xp (give_xp amount st).2).
Proof.
  split.
  - intros st amount _ Hamount. apply give_xp_returns, Hamount.
  - exists (fresh [] (λ _, no_skill) []), 300.
    rewrite (give_xp_fuel 1 300 _ (mkState 0 300 0 [] (λ _, no_skill) []));
      [|lia|reflexivity].
    vm_compute. repeat split; intros H; discriminate H.
Qed.

Lemma give_xp_keeps_non_strict_bound_witness :
  let st := mkState 2 100 10 [] (λ _, no_skill) [] in
  xp st ≤ required_xp st ∧ 0 ≤ 500
  ∧ xp (give_xp 500 st).2 ≤ required_xp (give_xp 500 st).2.
Proof.
  split; [vm_compute; intros H; discriminate H|].
  split; [lia|].
  apply (proj1 give_xp_keeps_non_strict_bound
           (mkState 2 100 10 [] (λ _, no_skill) []) 500).
  - vm_compute; intros H; discriminate H.
  - lia.
Defined.

(** ** Claims about skill upgrades and downgrades *)

Section SkillChanges.
Context {costs : SkillCosts}.

Lemma can_upgrade_skill_false (skill : loc) (st : State) :
  can_upgrade_skill skill st = false ↔
  skill ∉ skills st
  ∨ credits st < upgrade_cost (heap st skill)
  ∨ ∃ m, Skill.max_level (heap st skill) = Some m
         ∧ ¬ (m > Skill.level (heap st skill)).
Proof.
  unfold can_upgrade_skill.
  rewrite !andb_false_iff, !bool_decide_eq_false.
  destruct (Skill.max_level (heap st skill)) as [m|].
  - rewrite bool_decide_eq_false. split.
    + intros [[Hin|Hcr]|Hmax]; [left; exact Hin|right; left; lia|].
      right; right. exists m. split; [reflexivity|lia].
    + intros [Hin|[Hcr|(m' & [= <-] & Hmax)]];
        [left; left; exact Hin|left; right; lia|right; lia].
  - split.
    + intros [[Hin|Hcr]|Hmax]; [left; exact Hin|right; left; lia|discriminate].
    + intros [Hin|[Hcr|(m' & Hm & _)]];
        [left; left; exact Hin|left; right; lia|discriminate].
Qed.

Lemma can_downgrade_skill_false (skill : loc) (st : State) :
  can_downgrade_skill skill st = false ↔
  skill ∉ skills st ∨ ¬ (Skill.level (heap st skill) > 0).
Proof.
  unfold can_downgrade_skill.
  rewrite andb_false_iff, !bool_decide_eq_false. split.
  - intros [Hin|Hlv]; [left; exact Hin|right; lia].
  - intros [Hin|Hlv]; [left; exact Hin|right; lia].
Qed.

Lemma upgrade_skill_run (skill : loc) (st : State) :
  upgrade_skill skill st =
  if can_upgrade_skill skill st then
    (Ret (),
     emit (OnPlayerUpgradeSkill skill)
       (set_skill_level skill (Skill.level (heap st skill) + 1)
          (set_credits (credits st - upgrade_cost (heap st skill)) st)))
  else (Ret (), st).
Proof.
  unfold upgrade_skill. run.
  destruct (can_upgrade_skill skill st); reflexivity.
Qed.

Lemma downgrade_skill_run (skill : loc) (st : State) :
  downgrade_skill skill st =
  if can_downgrade_skill skill st then
    (Ret (),
     emit (OnPlayerDowngradeSkill skill)
       (set_skill_level skill (Skill.level (heap st skill) - 1)
          (set_credits (credits st + downgrade_refund (heap st skill)) st)))
  else (Ret (), st).
Proof.
  unfold downgrade_skill. run.
  destruct (can_downgrade_skill skill st); reflexivity.
Qed.

(** C6: [can_upgrade_skill] is false exactly when the skill is not in
    [skills], or [credits < upgrade_cost], or [max_level] is set and not
    greater than the skill's level; when it is false [upgrade_skill]
    returns normally with the state (and so the log) as it was, and so
    does [downgrade_skill] when [can_downgrade_skill] is false. *)
Theorem refused_skill_change_is_noop (skill : loc) (st : State) :
  (can_upgrade_skill skill st = false ↔
     skill ∉ skills st
     ∨ credits st < upgrade_cost (heap st skill)
     ∨ ∃ m, Skill.max_level (heap st skill) = Some m
            ∧ ¬ (m > Skill.level (heap st skill)))
  ∧ (can_upgrade_skill skill st = false →
     upgrade_skill skill st = (Ret (), st))
  ∧ (can_downgrade_skill skill st = false →
     downgrade_skill skill st = (Ret (), st)).
Proof.
  split; [apply can_upgrade_skill_false|]. split; intros Hno.
  - rewrite upgrade_skill_run, Hno. reflexivity.
  - rewrite downgrade_skill_run, Hno. reflexivity.
Qed.


End SkillChanges.

Lemma refused_skill_change_is_noop_witness :
  let st := mkState 0 0 0 [1%positive] (λ _, Skill.mk "regen" 0 (Some 5)) [] in
  @can_upgrade_skill (flat_costs 5 3) 1%positive st = false
  ∧ @can_downgrade_skill 1%positive st = false
  ∧ @upgrade_skill (flat_costs 5 3) 1%positive st = (Ret (), st)
  ∧ @downgrade_skill (flat_costs 5 3) 1%positive st = (Ret (), st).
Proof.
  cbv zeta.
  pose proof (@refused_skill_change_is_noop (flat_costs 5 3) 1%positive
    (mkState 0 0 0 [1%positive] (λ _, Skill.mk "regen" 0 (Some 5)) []))
    as (_ & Hup & Hdown).
  split; [reflexivity|]. split; [reflexivity|].
  split; [apply Hup | apply Hdown]; reflexivity.
Defined.


(** ** Claims about [reset_rpg_progress] and [find_skill] *)

Lemma zero_loop_run (l : list loc) : ∀ st,
  for_each (λ skill, modify (set_skill_level skill 0)) l st
  = (Ret (),
     mkState (_level st) (_xp st) (_credits st) (skills st)
       (zeroed l (heap st)) (log st)).
Proof.
  induction l as [|skill l IH]; intros st.
  - destruct st; reflexivity.
  - simpl. run. fold (modify (set_skill_level skill 0)).
    change (for_each (λ skill0, modify (set_skill_level skill0 0)) l
              (set_skill_level skill 0 st) = (Ret (),
       mkState (_level st) (_xp st) (_credits st) (skills st)
         (zeroed (skill :: l) (heap st)) (log st))).
    rewrite IH. simpl. do 2 f_equal.
    apply functional_extensionality; intros r. unfold zeroed.
    destruct (decide (skill = r)) as [<-|Hne].
    + rewrite fn_lookup_insert.
      rewrite (decide_True (P := skill ∈ skill :: l)) by apply list_elem_of_here.
      destruct (decide (skill ∈ l)); reflexivity.
    + rewrite fn_lookup_insert_ne by assumption.
      destruct (decide (r ∈ l)) as [Hin|Hout].
      * rewrite decide_True by (apply list_elem_of_further, Hin). reflexivity.
      * rewrite decide_False; [reflexivity|].
        intros [?|?]%elem_of_cons; [congruence|contradiction].
Qed.

Lemma reset_rpg_progress_run (st : State) :
  reset_rpg_progress st
  = (Ret (), mkState 0 0 0 (skills st) (zeroed (skills st) (heap st)) (log st)).
Proof.
  unfold reset_rpg_progress. run.
  change (for_each (λ skill, modify (set_skill_level skill 0)) (skills st)
            (set_credits 0 (set_xp 0 (set_level 0 st))) = (Ret (),
     mkState 0 0 0 (skills st) (zeroed (skills st) (heap st)) (log st))).
  rewrite zero_loop_run. reflexivity.
Qed.

Lemma zeroed_idemp (l : list loc) (h : loc → Skill.t) :
  zeroed l (zeroed l h) = zeroed l h.
Proof.
  apply functional_extensionality; intros r. unfold zeroed.
  destruct (decide (r ∈ l)); reflexivity.
Qed.

(** The scan returns a member of the list whenever some member has the
    identifier looked for. *)
Lemma find_skill_in_member (h : loc → Skill.t) (skill : loc) (l : list loc) :
  skill ∈ l →
  ∃ found, find_skill_in h (Skill.class_id (h skill)) l = Some found
           ∧ found ∈ l
           ∧ Skill.class_id (h found) = Skill.class_id (h skill).
Proof.
  induction l as [|x l IH]; intros Hin; [by apply elem_of_nil in Hin|].
  simpl. destruct (bool_decide_reflect
    (Skill.class_id (h x) = Skill.class_id (h skill))) as [Heq|Hne].
  - exists x. split; [reflexivity|]. split; [apply list_elem_of_here|exact Heq].
  - apply elem_of_cons in Hin as [->|Hin]; [congruence|].
    destruct (IH Hin) as (found & Hfind & Hmem & Hid).
    exists found. split; [exact Hfind|].
    split; [apply list_elem_of_further, Hmem|exact Hid].
Qed.

Lemma find_skill_in_ext (h h' : loc → Skill.t) (skill_id : string)
    (l : list loc) :
  (∀ r, Skill.class_id (h' r) = Skill.class_id (h r)) →
  find_skill_in h' skill_id l = find_skill_in h skill_id l.
Proof.
  intros Hid. induction l as [|x l IH]; [reflexivity|].
  simpl. rewrite Hid, IH. reflexivity.
Qed.

(** C8: [reset_rpg_progress] returns normally with level, xp and credits
    at 0 and every skill of [skills] at level 0 (other skills, the
    [skills] list and the log are as before: nothing is notified); a
    second reset changes nothing; and after the reset, [find_skill] with
    the [class_id] of any skill of [skills] that had a level returns a
    skill whose level is 0. *)
Theorem reset_rpg_progress_spec (st : State) :
  let st' := (reset_rpg_progress st).2 in
  (reset_rpg_progress st).1 = Ret ()
  ∧ level st' = 0 ∧ xp st' = 0 ∧ credits st' = 0
  ∧ (∀ skill, skill ∈ skills st → Skill.level (heap st' skill) = 0)
  ∧ (∀ skill, skill ∉ skills st → heap st' skill = heap st skill)
  ∧ skills st' = skills st
  ∧ log st' = log st
  ∧ reset_rpg_progress st' = (Ret (), st')
  ∧ (∀ skill, skill ∈ skills st → 0 < Skill.level (heap st skill) →
     ∃ found,
       find_skill (Skill.class_id (heap st skill)) st' = (Ret (Some found), st')
       ∧ Skill.level (heap st' found) = 0).
Proof.
  cbv zeta. rewrite reset_rpg_progress_run. simpl.
  split; [reflexivity|]. do 3 (split; [reflexivity|]).
  split; [|split; [|split; [reflexivity|split; [reflexivity|split]]]].
  - intros skill Hin. unfold zeroed. rewrite decide_True by assumption.
    reflexivity.
  - intros skill Hout. unfold zeroed. rewrite decide_False by assumption.
    reflexivity.
  - rewrite reset_rpg_progress_run. simpl. rewrite zeroed_idemp. reflexivity.
  - intros skill Hin _.
    destruct (find_skill_in_member (heap st) skill (skills st) Hin)
      as (found & Hfind & Hmem & _).
    exists found. unfold find_skill, gets. simpl. split.
    + rewrite (find_skill_in_ext (heap st)), Hfind; [reflexivity|].
      intros r. unfold zeroed. destruct (decide _); reflexivity.
    + unfold zeroed. rewrite decide_True by assumption. reflexivity.
Qed.

Lemma reset_rpg_progress_spec_witness :
  let h := <[2%positive := Skill.mk "regen" 3 None]> (λ _, Skill.mk "speed" 1 None) in
  let st := mkState 7 120 4 [1%positive; 2%positive] h [] in
  let st' := (reset_rpg_progress st).2 in
  2%positive ∈ skills st ∧ 0 < Skill.level (heap st 2%positive)
  ∧ ∃ found, find_skill "regen" st' = (Ret (Some found), st')
             ∧ Skill.level (heap st' found) = 0.
Proof.
  cbv zeta.
  split; [apply list_elem_of_further, list_elem_of_here|].
  split; [reflexivity|].
  pose proof (reset_rpg_progress_spec
    (mkState 7 120 4 [1%positive; 2%positive]
       (<[2%positive := Skill.mk "regen" 3 None]> (λ _, Skill.mk "speed" 1 None))
       [])) as H.
  cbv zeta in H.
  destruct H as (_ & _ & _ & _ & _ & _ & _ & _ & _ & Hfind).
  apply (Hfind 2%positive).
  - apply list_elem_of_further, list_elem_of_here.
  - reflexivity.
Defined.

(** ** Claims about [execute_skill_callbacks] *)

Lemma add_log_nil (st : State) :
  mkState (_level st) (_xp st) (_credits st) (skills st) (heap st)
    (log st ++ []) = st.
Proof. destruct st; simpl. rewrite app_nil_r. reflexivity. Qed.

Lemma callbacks_loop_run (event_name : string)
    (event_args : gmap string pyobj) (l : list loc) :
  event_args !! "player"%string = None →
  ∀ st,
  for_each (λ skill,
    lvl ← gets (λ st, Skill.level (heap st skill));
    if bool_decide (0 < lvl)
    then call_execute_callbacks skill event_name event_args
    else mret ()) l st
  = (Ret (),
     mkState (_level st) (_xp st) (_credits st) (skills st) (heap st)
       (log st ++ callbacks_of (heap st) event_name event_args l)).
Proof.
  intros Hfree. induction l as [|skill l IH]; intros st.
  - simpl. unfold mret, M_ret. rewrite add_log_nil. reflexivity.
  - cbn [for_each]. unfold callbacks_of, leveled in *.
    rewrite filter_cons.
    unfold mbind at 1, M_bind at 1. unfold mbind at 1, M_bind at 1.
    unfold gets at 1. cbv beta iota.
    destruct (bool_decide_reflect (0 < Skill.level (heap st skill)))
      as [Hpos|Hzero].
    + rewrite decide_True by assumption.
      unfold call_execute_callbacks at 1. rewrite Hfree.
      unfold notify, modify. cbv beta iota. rewrite IH. simpl.
      rewrite <- app_assoc. reflexivity.
    + rewrite decide_False by assumption.
      unfold mret at 1, M_ret at 1. cbv beta iota. apply IH.
Qed.

Lemma callbacks_loop_clash (event_name : string)
    (event_args : gmap string pyobj) (l : list loc) (v : pyobj) :
  event_args !! "player"%string = Some v →
  ∀ st,
  for_each (λ skill,
    lvl ← gets (λ st, Skill.level (heap st skill));
    if bool_decide (0 < lvl)
    then call_execute_callbacks skill event_name event_args
    else mret ()) l st
  = (match leveled (heap st) l with
     | [] => Ret ()
     | _ :: _ => Raise TypeError
     end, st).
Proof.
  intros Hclash. induction l as [|skill l IH]; intros st; [reflexivity|].
  cbn [for_each]. unfold leveled in *. rewrite filter_cons.
  unfold mbind at 1, M_bind at 1. unfold mbind at 1, M_bind at 1.
  unfold gets at 1. cbv beta iota.
  destruct (bool_decide_reflect (0 < Skill.level (heap st skill)))
    as [Hpos|Hzero].
  - rewrite decide_True by assumption.
    unfold call_execute_callbacks. rewrite Hclash. reflexivity.
  - rewrite decide_False by assumption.
    unfold mret at 1, M_ret at 1. cbv beta iota. apply IH.
Qed.

(** A call whose keyword arguments name neither [self] nor [event_name]
    runs the body with them as [event_args]; any other call raises
    [TypeError] and changes nothing. *)
Lemma execute_skill_callbacks_bound (event_name : string)
    (kwargs : gmap string pyobj) (st : State) :
  kwargs !! "self"%string = None →
  kwargs !! "event_name"%string = None →
  execute_skill_callbacks event_name kwargs st
  = for_each (λ skill,
      lvl ← gets (λ st, Skill.level (heap st skill));
      if bool_decide (0 < lvl)
      then call_execute_callbacks skill event_name kwargs
      else mret ()) (skills st) st.
Proof.
  intros Hself Hname. unfold execute_skill_callbacks.
  rewrite Hself, Hname. reflexivity.
Qed.

Lemma execute_skill_callbacks_unbound (event_name : string)
    (kwargs : gmap string pyobj) (st : State) :
  is_Some (kwargs !! "self"%string)
  ∨ is_Some (kwargs !! "event_name"%string) →
  execute_skill_callbacks event_name kwargs st = (Raise TypeError, st).
Proof.
  unfold execute_skill_callbacks.
  intros [[v Hv]|[v Hv]]; rewrite Hv; [reflexivity|].
  destruct (kwargs !! "self"%string); reflexivity.
Qed.

(** C9, as stated, fails: when the keyword arguments themselves have a
    [player] entry, the call to the callbacks of a leveled skill raises
    [TypeError] and no callback is invoked. *)
Lemma execute_skill_callbacks_player_clash :
  let st := mkState 0 0 0 [1%positive] (λ _, Skill.mk "regen" 1 None) [] in
  let event_args : gmap string pyobj := {[ "player"%string := PyInt 7 ]} in
  leveled (heap st) (skills st) = [1%positive]
  ∧ execute_skill_callbacks "player_spawn" event_args st
    = (Raise TypeError, st).
Proof. vm_compute. split; reflexivity. Qed.

(** C9 (amended): when the keyword arguments have no entry named
    [player], [self] or [event_name], [execute_skill_callbacks] returns
    normally having invoked [execute_callbacks], with [event_name] and
    with the keyword arguments extended by [player = self], on exactly the
    skills of [skills] whose level is greater than 0, in the order of
    [skills], and on nothing else; the rest of the state is unchanged.
    (In the other cases nothing is invoked and nothing changes: with an
    entry named [self] or [event_name] the call raises [TypeError]; with
    one named [player] and neither of those, it returns normally if no
    skill has a level and raises [TypeError] otherwise.) *)
Theorem execute_skill_callbacks_spec (event_name : string)
    (event_args : gmap string pyobj) (st : State) :
  (event_args !! "self"%string = None →
   event_args !! "event_name"%string = None →
   event_args !! "player"%string = None →
   execute_skill_callbacks event_name event_args st
   = (Ret (),
      mkState (_level st) (_xp st) (_credits st) (skills st) (heap st)
        (log st ++ callbacks_of (heap st) event_name event_args (skills st))))
  ∧ (event_args !! "self"%string = None →
     event_args !! "event_name"%string = None →
     is_Some (event_args !! "player"%string) →
     execute_skill_callbacks event_name event_args st
     = (match leveled (heap st) (skills st) with
        | [] => Ret ()
        | _ :: _ => Raise TypeError
        end, st))
  ∧ (is_Some (event_args !! "self"%string)
     ∨ is_Some (event_args !! "event_name"%string) →
     execute_skill_callbacks event_name event_args st = (Raise TypeError, st)).
Proof.
  split; [|split].
  - intros Hself Hname Hfree.
    rewrite execute_skill_callbacks_bound by assumption.
    apply (callbacks_loop_run event_name event_args (skills st) Hfree st).
  - intros Hself Hname [v Hclash].
    rewrite execute_skill_callbacks_bound by assumption.
    apply (callbacks_loop_clash event_name event_args (skills st) v Hclash st).
  - apply execute_skill_callbacks_unbound.
Qed.

Lemma execute_skill_callbacks_spec_witness :
  let h := <[2%positive := Skill.mk "regen" 0 None]> (λ _, Skill.mk "speed" 1 None) in
  let st := mkState 0 0 0 [1%positive; 2%positive; 3%positive] h [] in
  let event_args : gmap string pyobj := {[ "attacker"%string := PyInt 7 ]} in
  let kwargs : gmap string pyobj := <["player"%string := PySelf]> event_args in
  event_args !! "self"%string = None
  ∧ event_args !! "event_name"%string = None
  ∧ event_args !! "player"%string = None
  ∧ log (execute_skill_callbacks "player_attack" event_args st).2
    = [execute_callbacks 1%positive "player_attack" kwargs;
       execute_callbacks 3%positive "player_attack" kwargs].
Proof.
  cbv zeta.
  assert (Hself : ({[ "attacker"%string := PyInt 7 ]} : gmap string pyobj)
                  !! "self"%string = None) by reflexivity.
  assert (Hname : ({[ "attacker"%string := PyInt 7 ]} : gmap string pyobj)
                  !! "event_name"%string = None) by reflexivity.
  assert (Hfree : ({[ "attacker"%string := PyInt 7 ]} : gmap string pyobj)
                  !! "player"%string = None) by reflexivity.
  split; [exact Hself|]. split; [exact Hname|]. split; [exact Hfree|].
  rewrite (proj1 (execute_skill_callbacks_spec "player_attack"
    {[ "attacker"%string := PyInt 7 ]}
    (mkState 0 0 0 [1%positive; 2%positive; 3%positive]
       (<[2%positive := Skill.mk "regen" 0 None]> (λ _, Skill.mk "speed" 1 None))
       [])) Hself Hname Hfree).
  reflexivity.
Defined.

(** * Further properties of the code *)

(** ** [give_xp]: accounting *)

Lemma level_up_loop_thresholds (st : State) :
  xp st = xp (level_up_loop st)
          + thresholds (level st)
              (Z.to_nat (level (level_up_loop st) - level st)).
Proof.
  funelim (level_up_loop st); clear Heqcall.
  - pose proof (level_up_loop_spec (level_up st)) as (_ & Hmono & _).
    set (st' := level_up_loop (level_up st)) in *.
    replace (Z.to_nat (level st' - level st))
      with (S (Z.to_nat (level st' - level (level_up st))))
      by (unfold level_up, level in *; simpl in *; lia).
    simpl thresholds.
    replace (level st + 1) with (level (level_up st)) by reflexivity.
    unfold level_up, required_xp, xp, level in *; simpl in *. lia.
  - rewrite Z.sub_diag. simpl. lia.
Qed.

Lemma level_up_loop_positive (st : State) :
  0 < xp st → 0 < xp (level_up_loop st).
Proof.
  funelim (level_up_loop st); clear Heqcall; intros Hpos.
  - apply H. unfold level_up, required_xp, xp, level in *; simpl in *. lia.
  - exact Hpos.
Qed.

Lemma level_up_loop_rises (st : State) :
  level st < level (level_up_loop st) ↔ required_xp st < xp st.
Proof.
  rewrite level_up_loop_eq. destruct (decide (required_xp st < xp st)) as [Hgt|Hle].
  - split; [intros _; exact Hgt|intros _].
    pose proof (level_up_loop_spec (level_up st)) as (_ & Hmono & _).
    unfold level_up, level in *; simpl in *. lia.
  - split; [lia|contradiction].
Qed.

(** The state that [give_xp] leaves, for [amount >= 0]: the exit state of
    the loop, with some log. *)
Lemma give_xp_state (amount : Z) (st : State) :
  0 ≤ amount →
  (give_xp amount st).1 = Ret ()
  ∧ level (give_xp amount st).2 = level (level_up_loop (add_xp amount st))
  ∧ xp (give_xp amount st).2 = xp (level_up_loop (add_xp amount st))
  ∧ credits (give_xp amount st).2 = credits (level_up_loop (add_xp amount st))
  ∧ skills (give_xp amount st).2 = skills st
  ∧ heap (give_xp amount st).2 = heap st.
Proof.
  intros Hamount. rewrite give_xp_run.
  rewrite bool_decide_eq_false_2 by lia. cbv zeta.
  fold (add_xp amount st).
  pose proof (level_up_loop_spec (add_xp amount st))
    as (_ & _ & _ & Hss & Hh & _).
  destruct (bool_decide _); simpl; repeat split; assumption.
Qed.

(** X1: XP is conserved by [give_xp]: what was there plus what was given
    is what is left plus the thresholds of the levels gained. *)
Theorem give_xp_conserves_xp (amount : Z) (st : State) :
  0 ≤ amount →
  xp st + amount
  = xp (give_xp amount st).2
    + thresholds (level st)
        (Z.to_nat (level (give_xp amount st).2 - level st)).
Proof.
  intros Hamount.
  destruct (give_xp_state amount st Hamount) as (_ & -> & -> & _).
  apply (level_up_loop_thresholds (add_xp amount st)).
Qed.

Lemma give_xp_conserves_xp_witness :
  let st := mkState 2 100 10 [] (λ _, no_skill) [] in
  0 ≤ 1000
  ∧ xp st + 1000
    = xp (give_xp 1000 st).2
      + thresholds 2 (Z.to_nat (level (give_xp 1000 st).2 - 2)).
Proof.
  split; [lia|].
  apply (give_xp_conserves_xp 1000 (mkState 2 100 10 [] (λ _, no_skill) [])).
  lia.
Defined.

Lemma give_xp_gain (amount : Z) (st : State) :
  0 ≤ amount →
  level st ≤ level (give_xp amount st).2
  ∧ credits (give_xp amount st).2
    = credits st + 5 * (level (give_xp amount st).2 - level st).
Proof.
  intros Hamount.
  destruct (give_xp_state amount st Hamount) as (_ & -> & _ & -> & _).
  pose proof (level_up_loop_spec (add_xp amount st)) as (_ & Hmono & Hcr & _).
  change (level (add_xp amount st)) with (level st) in *.
  change (credits (add_xp amount st)) with (credits st) in *.
  split; lia.
Qed.

(** X2: [give_xp] never lowers the level, pays exactly 5 credits per level
    gained, and touches neither the [skills] list nor any skill object. *)
Theorem give_xp_levels_and_credits (amount : Z) (st : State) :
  0 ≤ amount →
  level st ≤ level (give_xp amount st).2
  ∧ credits (give_xp amount st).2
    = credits st + 5 * (level (give_xp amount st).2 - level st)
  ∧ skills (give_xp amount st).2 = skills st
  ∧ heap (give_xp amount st).2 = heap st.
Proof.
  intros Hamount.
  destruct (give_xp_gain amount st Hamount) as (Hmono & Hcr).
  destruct (give_xp_state amount st Hamount) as (_ & _ & _ & _ & Hss & Hh).
  repeat split; assumption.
Qed.

Lemma give_xp_levels_and_credits_witness :
  let st := mkState 2 100 10 [] (λ _, no_skill) [] in
  0 ≤ 1000
  ∧ credits (give_xp 1000 st).2
    = credits st + 5 * (level (give_xp 1000 st).2 - level st).
Proof.
  split; [lia|].
  apply (give_xp_levels_and_credits 1000
           (mkState 2 100 10 [] (λ _, no_skill) [])).
  lia.
Defined.

(** ** [give_xp]: when levels are gained, and what is notified *)

(** X3: for [amount >= 0], the level rises exactly when [xp + amount] is
    strictly above [required_xp]; then the log gains exactly one
    [OnPlayerLevelUp], whose [levels] is the number of levels gained
    negated and whose [credits] is 5 times that; otherwise only [xp]
    changes and nothing is notified. *)
Theorem give_xp_threshold_and_log (amount : Z) (st : State) :
  0 ≤ amount →
  (level st < level (give_xp amount st).2 ↔ required_xp st < xp st + amount)
  ∧ (required_xp st < xp st + amount →
     log (give_xp amount st).2
     = log st ++ [OnPlayerLevelUp
                    (- (level (give_xp amount st).2 - level st))
                    (5 * - (level (give_xp amount st).2 - level st))])
  ∧ (xp st + amount ≤ required_xp st →
     give_xp amount st = (Ret (), add_xp amount st)).
Proof.
  intros Hamount.
  assert (Hiff : level st < level (give_xp amount st).2
                 ↔ required_xp st < xp st + amount).
  { destruct (give_xp_state amount st Hamount) as (_ & -> & _).
    apply (level_up_loop_rises (add_xp amount st)). }
  split; [exact Hiff|]. split.
  - intros Hgt. apply Hiff in Hgt.
    rewrite (give_xp_level_up_event amount st Hamount Hgt).
    destruct (give_xp_gain amount st Hamount) as (_ & ->).
    do 3 f_equal. lia.
  - intros Hle. rewrite give_xp_run.
    rewrite bool_decide_eq_false_2 by lia. cbv zeta.
    fold (add_xp amount st).
    rewrite (level_up_loop_id (add_xp amount st)) by exact Hle.
    rewrite bool_decide_eq_false_2; [reflexivity|].
    change (level (add_xp amount st)) with (level st). lia.
Qed.

Lemma give_xp_threshold_and_log_witness :
  let st := mkState 2 100 10 [] (λ _, no_skill) [] in
  0 ≤ 230 ∧ xp st + 230 ≤ required_xp st
  ∧ give_xp 230 st = (Ret (), mkState 2 330 10 [] (λ _, no_skill) []).
Proof.
  cbv zeta.
  assert (Hle : xp (mkState 2 100 10 [] (λ _, no_skill) []) + 230
                ≤ required_xp (mkState 2 100 10 [] (λ _, no_skill) []))
    by (vm_compute; discriminate).
  split; [lia|]. split; [exact Hle|].
  destruct (give_xp_threshold_and_log 230
              (mkState 2 100 10 [] (λ _, no_skill) []) ltac:(lia))
    as (_ & _ & Hsame).
  exact (Hsame Hle).
Defined.

(** X4: when [xp + amount] is above [required_xp] by no more than the next
    level's threshold, exactly one level is gained: the level rises by 1,
    [required_xp] of the old level is taken from [xp], and 5 credits are
    paid. *)
Theorem give_xp_one_level (amount : Z) (st : State) :
  0 ≤ amount →
  required_xp st < xp st + amount →
  xp st + amount - required_xp st ≤ 300 + 15 * (level st + 1) →
  level (give_xp amount st).2 = level st + 1
  ∧ xp (give_xp amount st).2 = xp st + amount - required_xp st
  ∧ credits (give_xp amount st).2 = credits st + 5.
Proof.
  intros Hamount Hgt Hnext.
  destruct (give_xp_state amount st Hamount) as (_ & -> & -> & -> & _).
  rewrite level_up_loop_eq.
  destruct (decide (required_xp (add_xp amount st) < xp (add_xp amount st)))
    as [_|Hno]; [|exfalso; apply Hno; exact Hgt].
  rewrite level_up_loop_id; [repeat split|].
  unfold level_up, add_xp, required_xp, xp, level in *; simpl in *. lia.
Qed.

Lemma give_xp_one_level_witness :
  let st := mkState 2 100 10 [] (λ _, no_skill) [] in
  0 ≤ 400
  ∧ level (give_xp 400 st).2 = 3
  ∧ xp (give_xp 400 st).2 = 170
  ∧ credits (give_xp 400 st).2 = 15.
Proof.
  split; [lia|].
  apply (give_xp_one_level 400 (mkState 2 100 10 [] (λ _, no_skill) []));
    vm_compute; (reflexivity || discriminate).
Defined.

(** ** [give_xp]: bounds *)

Lemma level_up_loop_bound (st : State) :
  0 ≤ level st →
  300 * (level (level_up_loop st) - level st) ≤ xp st - xp (level_up_loop st).
Proof.
  funelim (level_up_loop st); clear Heqcall; intros Hlevel.
  - set (st' := level_up_loop (level_up st)) in *.
    unfold level_up, required_xp, xp, level in *; simpl in *. lia.
  - lia.
Qed.

(** X5: [give_xp] keeps [level], [xp] and [credits] from going negative,
    and after a call that gained a level [xp] is at least 1. *)
Theorem give_xp_keeps_non_negative (amount : Z) (st : State) :
  0 ≤ amount →
  (0 ≤ level st → 0 ≤ level (give_xp amount st).2)
  ∧ (0 ≤ xp st → 0 ≤ xp (give_xp amount st).2)
  ∧ (0 ≤ credits st → 0 ≤ credits (give_xp amount st).2)
  ∧ (level st < level (give_xp amount st).2 → 0 < xp (give_xp amount st).2).
Proof.
  intros Hamount.
  destruct (give_xp_gain amount st Hamount) as (Hmono & Hcr).
  split; [lia|]. split; [|split; [lia|]].
  - intros Hxp.
    destruct (give_xp_state amount st Hamount) as (_ & _ & -> & _).
    destruct (decide (xp st + amount = 0)) as [Hzero|Hpos].
    + rewrite level_up_loop_eq.
      destruct (decide _) as [Hgt|_]; [|simpl; lia].
      enough (0 < xp (level_up_loop (level_up (add_xp amount st)))) by lia.
      apply level_up_loop_positive.
      unfold level_up, add_xp, required_xp, xp, level in *; simpl in *. lia.
    + enough (0 < xp (level_up_loop (add_xp amount st))) by lia.
      apply level_up_loop_positive. simpl. lia.
  - destruct (give_xp_state amount st Hamount) as (_ & -> & -> & _).
    intros Hrose. apply (level_up_loop_rises (add_xp amount st)) in Hrose.
    rewrite level_up_loop_eq.
    destruct (decide _) as [Hgt|Hno]; [|contradiction].
    apply level_up_loop_positive.
    unfold level_up, add_xp, required_xp, xp, level in *; simpl in *. lia.
Qed.

Lemma give_xp_keeps_non_negative_witness :
  let st := mkState 2 100 10 [] (λ _, no_skill) [] in
  0 ≤ 1000 ∧ 0 ≤ xp st ∧ 0 ≤ xp (give_xp 1000 st).2.
Proof.
  cbv zeta.
  assert (Hxp : 0 ≤ xp (mkState 2 100 10 [] (λ _, no_skill) []))
    by (vm_compute; discriminate).
  split; [lia|]. split; [exact Hxp|].
  destruct (give_xp_keeps_non_negative 1000
              (mkState 2 100 10 [] (λ _, no_skill) []) ltac:(lia))
    as (_ & Hkeep & _).
  exact (Hkeep Hxp).
Defined.

(** X6: from a level that is not negative, every level gained costs at
    least 300 XP: 300 times the levels gained is at most what [xp] held
    plus [amount], less what [xp] holds after. *)
Theorem give_xp_levels_bounded (amount : Z) (st : State) :
  0 ≤ amount →
  0 ≤ level st →
  300 * (level (give_xp amount st).2 - level st)
  ≤ xp st + amount - xp (give_xp amount st).2.
Proof.
  intros Hamount Hlevel.
  destruct (give_xp_state amount st Hamount) as (_ & -> & -> & _).
  apply (level_up_loop_bound (add_xp amount st)). exact Hlevel.
Qed.

Lemma give_xp_levels_bounded_witness :
  let st := mkState 2 100 10 [] (λ _, no_skill) [] in
  0 ≤ 1000 ∧ 0 ≤ level st
  ∧ 300 * (level (give_xp 1000 st).2 - level st)
    ≤ xp st + 1000 - xp (give_xp 1000 st).2.
Proof.
  cbv zeta.
  assert (Hlevel : 0 ≤ level (mkState 2 100 10 [] (λ _, no_skill) []))
    by (vm_compute; discriminate).
  split; [lia|]. split; [exact Hlevel|].
  apply (give_xp_levels_bounded 1000
           (mkState 2 100 10 [] (λ _, no_skill) [])); [lia|exact Hlevel].
Defined.

(** ** [give_xp]: giving XP in parts *)

(** More XP before the loop does not change where the loop ends: the loop
    run on what an earlier run left, plus [amount], ends where the loop
    run on the start plus [amount] ends. *)
Lemma level_up_loop_add_xp (amount : Z) (st : State) :
  0 ≤ amount →
  level_up_loop (add_xp amount (level_up_loop st))
  = level_up_loop (add_xp amount st).
Proof.
  funelim (level_up_loop st); clear Heqcall; intros Hamount; [|reflexivity].
  rewrite H by exact Hamount. symmetry. rewrite level_up_loop_eq.
  destruct (decide (required_xp (add_xp amount st) < xp (add_xp amount st)))
    as [_|Hno].
  - f_equal. unfold level_up, add_xp, set_credits, set_level, set_xp,
      required_xp, xp, level, credits; simpl. f_equal. lia.
  - exfalso. apply Hno. unfold add_xp, required_xp, xp, level in *; simpl in *.
    lia.
Qed.

(** The loop does not look at the log. *)
Lemma level_up_loop_log (lg : list call) (st : State) :
  level_up_loop
    (mkState (_level st) (_xp st) (_credits st) (skills st) (heap st) lg)
  = mkState (_level (level_up_loop st)) (_xp (level_up_loop st))
      (_credits (level_up_loop st)) (skills (level_up_loop st))
      (heap (level_up_loop st)) lg.
Proof.
  funelim (level_up_loop st); clear Heqcall.
  - rewrite level_up_loop_eq.
    destruct (decide _) as [Hyes|Hno]; [|exfalso; apply Hno; exact l].
    apply H.
  - rewrite level_up_loop_eq.
    destruct (decide _) as [Hyes|Hno]; [exfalso; apply n; exact Hyes|].
    reflexivity.
Qed.

Lemma give_xp_then_loop (a b : Z) (st : State) :
  0 ≤ a → 0 ≤ b →
  ∃ lg,
    level_up_loop (add_xp b (give_xp a st).2)
    = mkState (_level (level_up_loop (add_xp (a + b) st)))
        (_xp (level_up_loop (add_xp (a + b) st)))
        (_credits (level_up_loop (add_xp (a + b) st)))
        (skills (level_up_loop (add_xp (a + b) st)))
        (heap (level_up_loop (add_xp (a + b) st))) lg.
Proof.
  intros Ha Hb. rewrite give_xp_run.
  rewrite bool_decide_eq_false_2 by lia. cbv zeta. fold (add_xp a st).
  assert (Hsum : add_xp b (add_xp a st) = add_xp (a + b) st).
  { unfold add_xp, set_xp, xp; simpl. f_equal. lia. }
  destruct (bool_decide _); simpl.
  - eexists.
    change (add_xp b (emit ?c ?s))
      with (mkState (_level (add_xp b s)) (_xp (add_xp b s))
              (_credits (add_xp b s)) (skills (add_xp b s))
              (heap (add_xp b s)) (log s ++ [c])).
    rewrite level_up_loop_log, level_up_loop_add_xp, Hsum by exact Hb.
    reflexivity.
  - exists (log (level_up_loop (add_xp (a + b) st))).
    rewrite level_up_loop_add_xp, Hsum by exact Hb.
    destruct (level_up_loop (add_xp (a + b) st)); reflexivity.
Qed.

(** X7: XP given in two parts leaves the same level, xp and credits as the
    sum given at once (the notifications differ: each part that gains a
    level sends its own). *)
Theorem give_xp_in_parts (a b : Z) (st : State) :
  0 ≤ a → 0 ≤ b →
  level (give_xp b (give_xp a st).2).2 = level (give_xp (a + b) st).2
  ∧ xp (give_xp b (give_xp a st).2).2 = xp (give_xp (a + b) st).2
  ∧ credits (give_xp b (give_xp a st).2).2 = credits (give_xp (a + b) st).2.
Proof.
  intros Ha Hb.
  destruct (give_xp_state b (give_xp a st).2 Hb) as (_ & -> & -> & -> & _).
  destruct (give_xp_state (a + b) st ltac:(lia)) as (_ & -> & -> & -> & _).
  destruct (give_xp_then_loop a b st Ha Hb) as [lg ->].
  repeat split.
Qed.

Lemma give_xp_in_parts_witness :
  let st := mkState 0 250 0 [] (λ _, no_skill) [] in
  0 ≤ 100 ∧ 0 ≤ 600
  ∧ level (give_xp 600 (give_xp 100 st).2).2 = level (give_xp (100 + 600) st).2.
Proof.
  split; [lia|]. split; [lia|].
  apply (give_xp_in_parts 100 600 (mkState 0 250 0 [] (λ _, no_skill) []));
    lia.
Defined.

(** ** Skill upgrades and downgrades: what they keep *)

Section SkillInvariants.
Context {costs : SkillCosts}.

Lemma can_upgrade_skill_true (skill : loc) (st : State) :
  can_upgrade_skill skill st = true →
  skill ∈ skills st
  ∧ upgrade_cost (heap st skill) ≤ credits st
  ∧ ∀ m, Skill.max_level (heap st skill) = Some m →
         Skill.level (heap st skill) < m.
Proof.
  unfold can_upgrade_skill. intros Hcan.
  apply andb_true_iff in Hcan as [Hcan Hmax].
  apply andb_true_iff in Hcan as [Hin Hcost].
  apply bool_decide_eq_true_1 in Hin, Hcost.
  split; [exact Hin|]. split; [exact Hcost|].
  intros m Hm. rewrite Hm in Hmax. exact (bool_decide_eq_true_1 _ Hmax).
Qed.

Lemma can_downgrade_skill_true (skill : loc) (st : State) :
  can_downgrade_skill skill st = true →
  skill ∈ skills st ∧ 0 < Skill.level (heap st skill).
Proof.
  unfold can_downgrade_skill. intros Hcan.
  apply andb_true_iff in Hcan as [Hin Hlevel].
  split; [exact (bool_decide_eq_true_1 _ Hin)|].
  exact (bool_decide_eq_true_1 _ Hlevel).
Qed.

(** X8: [upgrade_skill] and [downgrade_skill] keep every skill object
    within its bounds: a level that was not negative and not above
    [max_level] is so afterwards, for the skill named and for any other. *)
Theorem skill_changes_keep_bounds (skill r : loc) (st : State) :
  skill_ok (heap st r) →
  skill_ok (heap (upgrade_skill skill st).2 r)
  ∧ skill_ok (heap (downgrade_skill skill st).2 r).
Proof.
  intros [Hlow Hhigh]. split.
  - rewrite upgrade_skill_run.
    destruct (can_upgrade_skill skill st) eqn:Hcan; [|split; assumption].
    apply can_upgrade_skill_true in Hcan as (_ & _ & Hmax). simpl.
    destruct (decide (skill = r)) as [->|Hne].
    + rewrite fn_lookup_insert. split; simpl; [lia|].
      intros m Hm. specialize (Hmax m Hm). lia.
    + rewrite fn_lookup_insert_ne by exact Hne. split; assumption.
  - rewrite downgrade_skill_run.
    destruct (can_downgrade_skill skill st) eqn:Hcan; [|split; assumption].
    apply can_downgrade_skill_true in Hcan as (_ & Hpos). simpl.
    destruct (decide (skill = r)) as [->|Hne].
    + rewrite fn_lookup_insert. split; simpl; [lia|].
      intros m Hm. specialize (Hhigh m Hm). lia.
    + rewrite fn_lookup_insert_ne by exact Hne. split; assumption.
Qed.


(** X10: [upgrade_skill] and [downgrade_skill] return normally and change
    neither [level], [xp], the [skills] list, nor any skill object other
    than the one named; of that one they change only the level; and they
    add at most one entry to the log. *)
Theorem skill_changes_frame (skill : loc) (st : State) :
  let up := upgrade_skill skill st in
  let down := downgrade_skill skill st in
  (up.1 = Ret () ∧ down.1 = Ret ())
  ∧ (level up.2 = level st ∧ level down.2 = level st)
  ∧ (xp up.2 = xp st ∧ xp down.2 = xp st)
  ∧ (skills up.2 = skills st ∧ skills down.2 = skills st)
  ∧ (∀ r, r ≠ skill →
       heap up.2 r = heap st r ∧ heap down.2 r = heap st r)
  ∧ (Skill.class_id (heap up.2 skill) = Skill.class_id (heap st skill)
     ∧ Skill.class_id (heap down.2 skill) = Skill.class_id (heap st skill))
  ∧ (Skill.max_level (heap up.2 skill) = Skill.max_level (heap st skill)
     ∧ Skill.max_level (heap down.2 skill) = Skill.max_level (heap st skill))
  ∧ (log up.2 = log st ∨ log up.2 = log st ++ [OnPlayerUpgradeSkill skill])
  ∧ (log down.2 = log st
     ∨ log down.2 = log st ++ [OnPlayerDowngradeSkill skill]).
Proof.
  cbv zeta. rewrite upgrade_skill_run, downgrade_skill_run.
  destruct (can_upgrade_skill skill st), (can_downgrade_skill skill st);
    simpl; rewrite ?fn_lookup_insert; simpl;
    repeat split; try reflexivity; auto;
    apply fn_lookup_insert_ne; congruence.
Qed.

(** X11: a downgrade followed by an upgrade of the same skill.  When the
    downgrade is allowed, the credits after the refund cover the cost
    that the skill asks one level lower, and the level is not above
    [max_level], both calls act: the skill's level is back at its prior
    value and [credits] has changed by the refund less that cost. *)
Theorem downgrade_then_upgrade (skill : loc) (st : State) :
  can_downgrade_skill skill st = true →
  (∀ m, Skill.max_level (heap st skill) = Some m →
        Skill.level (heap st skill) ≤ m) →
  let lower := Skill.set_level (Skill.level (heap st skill) - 1)
                 (heap st skill) in
  upgrade_cost lower ≤ credits st + downgrade_refund (heap st skill) →
  let st1 := (downgrade_skill skill st).2 in
  let st2 := (upgrade_skill skill st1).2 in
  heap st1 skill = lower
  ∧ Skill.level (heap st2 skill) = Skill.level (heap st skill)
  ∧ credits st2
    = credits st + downgrade_refund (heap st skill) - upgrade_cost lower
  ∧ log st2
    = log st ++ [OnPlayerDowngradeSkill skill; OnPlayerUpgradeSkill skill].
Proof.
  intros Hcan Hmax lower Hcost. cbv zeta.
  rewrite downgrade_skill_run, Hcan. simpl.
  apply can_downgrade_skill_true in Hcan as (Hin & Hpos).
  rewrite upgrade_skill_run.
  assert (Hup : can_upgrade_skill skill
            (emit (OnPlayerDowngradeSkill skill)
               (set_skill_level skill (Skill.level (heap st skill) - 1)
                  (set_credits (credits st + downgrade_refund (heap st skill))
                     st))) = true).
  { unfold can_upgrade_skill. simpl. rewrite fn_lookup_insert.
    fold lower. simpl.
    rewrite !bool_decide_eq_true_2 by (assumption || (unfold credits; simpl; lia)).
    simpl. destruct (Skill.max_level (heap st skill)) as [m|] eqn:Hm;
      [|reflexivity].
    apply bool_decide_eq_true_2. specialize (Hmax m eq_refl). lia. }
  rewrite Hup. simpl. rewrite !fn_lookup_insert. simpl. fold lower.
  split; [reflexivity|]. split; [lia|]. split; [reflexivity|].
  rewrite <- app_assoc. reflexivity.
Qed.

End SkillInvariants.

Lemma skill_changes_keep_bounds_witness :
  let st := mkState 0 0 10 [1%positive] (λ _, Skill.mk "regen" 4 (Some 5)) [] in
  skill_ok (heap st 1%positive)
  ∧ skill_ok (heap (@upgrade_skill (flat_costs 5 3) 1%positive st).2 1%positive)
  ∧ skill_ok
      (heap (@downgrade_skill (flat_costs 5 3) 1%positive st).2 1%positive).
Proof.
  cbv zeta.
  assert (Hok : skill_ok (Skill.mk "regen" 4 (Some 5))).
  { split; simpl; [lia|]. intros m [= <-]. lia. }
  split; [exact Hok|].
  apply (@skill_changes_keep_bounds (flat_costs 5 3) 1%positive 1%positive
           (mkState 0 0 10 [1%positive] (λ _, Skill.mk "regen" 4 (Some 5)) [])).
  exact Hok.
Defined.


Lemma skill_changes_frame_witness :
  let st := mkState 3 40 10 [1%positive]
              (<[2%positive := Skill.mk "speed" 2 None]>
                 (λ _, Skill.mk "regen" 4 (Some 5))) [] in
  2%positive ≠ 1%positive
  ∧ heap (@upgrade_skill (flat_costs 5 3) 1%positive st).2 2%positive
    = heap st 2%positive.
Proof.
  cbv zeta. split; [discriminate|].
  pose proof (@skill_changes_frame (flat_costs 5 3) 1%positive
    (mkState 3 40 10 [1%positive]
       (<[2%positive := Skill.mk "speed" 2 None]>
          (λ _, Skill.mk "regen" 4 (Some 5))) [])) as H.
  cbv zeta in H. destruct H as (_ & _ & _ & _ & Hother & _).
  apply (Hother 2%positive). discriminate.
Defined.

Lemma downgrade_then_upgrade_witness :
  let costs := flat_costs 5 3 in
  let st := mkState 0 0 2 [1%positive] (λ _, Skill.mk "regen" 5 (Some 5)) [] in
  let st2 := (upgrade_skill 1%positive (downgrade_skill 1%positive st).2).2 in
  can_downgrade_skill 1%positive st = true
  ∧ Skill.level (heap st2 1%positive) = 5
  ∧ credits st2 = 2 + 3 - 5.
Proof.
  cbv zeta. split; [reflexivity|].
  pose proof (@downgrade_then_upgrade (flat_costs 5 3) 1%positive
    (mkState 0 0 2 [1%positive] (λ _, Skill.mk "regen" 5 (Some 5)) [])
    eq_refl) as H.
  simpl in H. 
  destruct H as (_ & Hlevel & Hcredits & _).
  - intros m [= <-]. lia.
  - lia.
  - split; [exact Hlevel|exact Hcredits].
Defined.

(** ** [find_skill] *)

Lemma find_skill_in_first (h : loc → Skill.t) (skill_id : string)
    (l : list loc) :
  match find_skill_in h skill_id l with
  | Some found =>
      ∃ before after,
        l = before ++ found :: after
        ∧ Skill.class_id (h found) = skill_id
        ∧ ∀ r, r ∈ before → Skill.class_id (h r) ≠ skill_id
  | None => ∀ r, r ∈ l → Skill.class_id (h r) ≠ skill_id
  end.
Proof.
  induction l as [|x l IH]; simpl.
  - intros r Hin. by apply elem_of_nil in Hin.
  - destruct (bool_decide_reflect (Skill.class_id (h x) = skill_id))
      as [Heq|Hne].
    + exists [], l. split; [reflexivity|]. split; [exact Heq|].
      intros r Hin. by apply elem_of_nil in Hin.
    + destruct (find_skill_in h skill_id l) as [found|].
      * destruct IH as (before & after & -> & Hid & Hnone).
        exists (x :: before), after. split; [reflexivity|].
        split; [exact Hid|].
        intros r [->|Hin]%elem_of_cons; [exact Hne|apply Hnone, Hin].
      * intros r [->|Hin]%elem_of_cons; [exact Hne|apply IH, Hin].
Qed.

(** X12: [find_skill] changes nothing and returns the first skill of
    [skills] whose [class_id] is the one asked for (no skill before it in
    the list has that [class_id]), or [None] when no skill of [skills] has
    it. *)
Theorem find_skill_first_match (skill_id : string) (st : State) :
  ∃ result,
    find_skill skill_id st = (Ret result, st)
    ∧ match result with
      | Some found =>
          ∃ before after,
            skills st = before ++ found :: after
            ∧ Skill.class_id (heap st found) = skill_id
            ∧ ∀ r, r ∈ before → Skill.class_id (heap st r) ≠ skill_id
      | None => ∀ r, r ∈ skills st → Skill.class_id (heap st r) ≠ skill_id
      end.
Proof.
  exists (find_skill_in (heap st) skill_id (skills st)).
  split; [reflexivity|]. apply find_skill_in_first.
Qed.

(** X13: when no two skills of [skills] share a [class_id], [find_skill]
    with the [class_id] of a skill of [skills] returns that very skill. *)
Theorem find_skill_unique (skill : loc) (st : State) :
  skill ∈ skills st →
  (∀ r, r ∈ skills st →
        Skill.class_id (heap st r) = Skill.class_id (heap st skill) →
        r = skill) →
  find_skill (Skill.class_id (heap st skill)) st = (Ret (Some skill), st).
Proof.
  intros Hin Huniq.
  destruct (find_skill_in_member (heap st) skill (skills st) Hin)
    as (found & Hfind & Hmem & Hid).
  unfold find_skill, gets. rewrite Hfind.
  rewrite (Huniq found Hmem Hid). reflexivity.
Qed.

Lemma find_skill_unique_witness :
  let h := <[2%positive := Skill.mk "regen" 3 None]>
             (λ _, Skill.mk "speed" 1 None) in
  let st := mkState 0 0 0 [1%positive; 2%positive] h [] in
  2%positive ∈ skills st
  ∧ find_skill "regen" st = (Ret (Some 2%positive), st).
Proof.
  cbv zeta.
  assert (Hin : 2%positive ∈ [1%positive; 2%positive])
    by apply list_elem_of_further, list_elem_of_here.
  split; [exact Hin|].
  assert (Huniq : ∀ r, r ∈ [1%positive; 2%positive] →
            Skill.class_id
              ((<[2%positive := Skill.mk "regen" 3 None]>
                  (λ _, Skill.mk "speed" 1 None) : loc → Skill.t) r)
            = "regen"%string →
            r = 2%positive).
  { intros r Hr Hid.
    apply elem_of_cons in Hr as [->|Hr]; [discriminate Hid|].
    apply elem_of_cons in Hr as [->|Hr]; [reflexivity|].
    by apply elem_of_nil in Hr. }
  exact (find_skill_unique 2%positive
    (mkState 0 0 0 [1%positive; 2%positive]
       (<[2%positive := Skill.mk "regen" 3 None]>
          (λ _, Skill.mk "speed" 1 None)) []) Hin Huniq).
Defined.

(** ** After a reset, and with no skills *)

Lemma leveled_zeroed (l : list loc) (h : loc → Skill.t) :
  leveled (zeroed l h) l = [].
Proof.
  unfold leveled.
  destruct (filter _ l) as [|r rest] eqn:Hfilter; [reflexivity|].
  assert (Hr : r ∈ filter (λ skill, 0 < Skill.level (zeroed l h skill)) l)
    by (rewrite Hfilter; apply list_elem_of_here).
  apply list_elem_of_filter in Hr as [Hpos Hin].
  unfold zeroed in Hpos. rewrite decide_True in Hpos by exact Hin.
  simpl in Hpos. lia.
Qed.

(** X14: right after [reset_rpg_progress], no skill can be downgraded
    ([downgrade_skill] does nothing, whatever the refund), and
    [execute_skill_callbacks] invokes no callback and changes nothing,
    whatever the event and its keyword arguments: it returns normally
    when none of them is named [self] or [event_name] (even with one
    named [player]). *)
Theorem after_reset_nothing_is_leveled (st : State) :
  let st' := (reset_rpg_progress st).2 in
  (∀ skill, can_downgrade_skill skill st' = false)
  ∧ (∀ (costs : SkillCosts) skill, downgrade_skill skill st' = (Ret (), st'))
  ∧ (∀ event_name kwargs,
       (execute_skill_callbacks event_name kwargs st').2 = st')
  ∧ (∀ event_name kwargs,
       kwargs !! "self"%string = None →
       kwargs !! "event_name"%string = None →
       execute_skill_callbacks event_name kwargs st' = (Ret (), st')).
Proof.
  cbv zeta. rewrite reset_rpg_progress_run. simpl.
  set (st' := mkState 0 0 0 (skills st) (zeroed (skills st) (heap st)) (log st)).
  assert (Hno : ∀ skill, can_downgrade_skill skill st' = false).
  { intros skill. unfold can_downgrade_skill. simpl.
    destruct (bool_decide_reflect (skill ∈ skills st)) as [Hin|Hout];
      [|reflexivity].
    unfold zeroed. rewrite decide_True by exact Hin. reflexivity. }
  assert (Hrun : ∀ event_name kwargs,
            kwargs !! "self"%string = None →
            kwargs !! "event_name"%string = None →
            execute_skill_callbacks event_name kwargs st' = (Ret (), st')).
  { intros event_name kwargs Hself Hname.
    rewrite execute_skill_callbacks_bound by assumption.
    destruct (kwargs !! "player"%string) as [v|] eqn:Hplayer.
    - rewrite (callbacks_loop_clash event_name kwargs (skills st') v Hplayer).
      simpl. rewrite leveled_zeroed. reflexivity.
    - rewrite (callbacks_loop_run event_name kwargs (skills st') Hplayer).
      unfold callbacks_of. simpl. rewrite leveled_zeroed. simpl.
      rewrite app_nil_r. reflexivity. }
  split; [exact Hno|]. split; [|split; [|exact Hrun]].
  - intros costs skill. rewrite downgrade_skill_run, Hno. reflexivity.
  - intros event_name kwargs.
    destruct (kwargs !! "self"%string) as [v|] eqn:Hself.
    + rewrite execute_skill_callbacks_unbound; [reflexivity|].
      left. rewrite Hself. eexists; reflexivity.
    + destruct (kwargs !! "event_name"%string) as [v|] eqn:Hname.
      * rewrite execute_skill_callbacks_unbound; [reflexivity|].
        right. rewrite Hname. eexists; reflexivity.
      * rewrite (Hrun event_name kwargs Hself Hname). reflexivity.
Qed.

Lemma after_reset_nothing_is_leveled_witness :
  let st := mkState 7 120 4 [1%positive] (λ _, Skill.mk "regen" 3 None) [] in
  let st' := (reset_rpg_progress st).2 in
  let kwargs : gmap string pyobj := {[ "player"%string := PyInt 7 ]} in
  kwargs !! "self"%string = None
  ∧ kwargs !! "event_name"%string = None
  ∧ execute_skill_callbacks "player_spawn" kwargs st' = (Ret (), st').
Proof.
  cbv zeta.
  assert (Hself : ({[ "player"%string := PyInt 7 ]} : gmap string pyobj)
                  !! "self"%string = None) by reflexivity.
  assert (Hname : ({[ "player"%string := PyInt 7 ]} : gmap string pyobj)
                  !! "event_name"%string = None) by reflexivity.
  split; [exact Hself|]. split; [exact Hname|].
  pose proof (after_reset_nothing_is_leveled
    (mkState 7 120 4 [1%positive] (λ _, Skill.mk "regen" 3 None) [])) as H.
  cbv zeta in H. destruct H as (_ & _ & _ & Hrun).
  exact (Hrun "player_spawn"%string {[ "player"%string := PyInt 7 ]}
           Hself Hname).
Defined.

(** X15: a player with no skills, as [Player(index)] builds it:
    [find_skill] returns [None] for every identifier, no skill can be
    upgraded or downgraded, [execute_skill_callbacks] invokes nothing and
    changes nothing (and returns normally when no keyword argument is
    named [self] or [event_name]), and [reset_rpg_progress] only zeroes
    level, xp and credits. *)
Theorem no_skills_edge (st : State) :
  skills st = [] →
  (∀ skill_id, find_skill skill_id st = (Ret None, st))
  ∧ (∀ (costs : SkillCosts) skill,
       upgrade_skill skill st = (Ret (), st)
       ∧ downgrade_skill skill st = (Ret (), st))
  ∧ (∀ event_name kwargs,
       (execute_skill_callbacks event_name kwargs st).2 = st)
  ∧ (∀ event_name kwargs,
       kwargs !! "self"%string = None →
       kwargs !! "event_name"%string = None →
       execute_skill_callbacks event_name kwargs st = (Ret (), st))
  ∧ reset_rpg_progress st
    = (Ret (), mkState 0 0 0 [] (heap st) (log st)).
Proof.
  destruct st as [lv x cr ss h lg]. simpl. intros ->.
  split; [reflexivity|]. split; [|split; [|split; [|reflexivity]]].
  - intros costs skill. rewrite upgrade_skill_run, downgrade_skill_run.
    split; reflexivity.
  - intros event_name kwargs. unfold execute_skill_callbacks.
    destruct (kwargs !! "self"%string), (kwargs !! "event_name"%string);
      reflexivity.
  - intros event_name kwargs Hself Hname.
    rewrite execute_skill_callbacks_bound by assumption. reflexivity.
Qed.

Lemma no_skills_edge_witness :
  let st := Player_init None None None None (λ _, no_skill) [] in
  let kwargs : gmap string pyobj := {[ "player"%string := PyInt 7 ]} in
  skills st = []
  ∧ find_skill "regen" st = (Ret None, st)
  ∧ @upgrade_skill (flat_costs 0 0) 1%positive st = (Ret (), st)
  ∧ kwargs !! "self"%string = None
  ∧ kwargs !! "event_name"%string = None
  ∧ execute_skill_callbacks "player_spawn" kwargs st = (Ret (), st).
Proof.
  cbv zeta. split; [reflexivity|].
  assert (Hself : ({[ "player"%string := PyInt 7 ]} : gmap string pyobj)
                  !! "self"%string = None) by reflexivity.
  assert (Hname : ({[ "player"%string := PyInt 7 ]} : gmap string pyobj)
                  !! "event_name"%string = None) by reflexivity.
  destruct (no_skills_edge (Player_init None None None None (λ _, no_skill) [])
              eq_refl) as (Hfind & Hchange & _ & Hrun & _).
  split; [apply Hfind|]. split; [apply (Hchange (flat_costs 0 0) 1%positive)|].
  split; [exact Hself|]. split; [exact Hname|].
  exact (Hrun "player_spawn"%string {[ "player"%string := PyInt 7 ]}
           Hself Hname).
Defined.
